(** * install-pre-commit: the command-line scaffold of the repository

    A shallow embedding of [src/scripts/install-pre-commit.ts].  The script
    is a thin Deno program over the yargs library: it declares four boolean
    options, logs through four levelled loggers that all write to standard
    output, and registers one default command and one failure callback.

    The embedding keeps the shape of the source:
    - the module-level [let verboseEnabled] and the bytes written to
      [Deno.stdout] live in a [Process] record that every function threads;
    - [Deno.exit] ends a computation early, so computations return a
      [Completion];
    - what Deno and yargs supply from outside (the [NO_COLOR] switch, the
      generated help text, the completion script) is read from a [Host]
      record. *)

From Stdlib Require Import ZArith Ascii String.
From stdpp Require Import base strings list gmap.

Local Open Scope string_scope.
Local Open Scope Z_scope.

(** ** Characters the source writes with escapes *)

(** [\x1B] *)
Definition ESC : string := String "027"%char EmptyString.
(** [\n] *)
Definition LF : string := String "010"%char EmptyString.
(** The double quote inside the template literal of [onFail]. *)
Definition DQUOTE : string := String "034"%char EmptyString.

(** ** JavaScript values handed to the loggers

    The loggers take [...data: unknown[]] and call [data.join(' ')].
    [Array.prototype.join] turns [undefined] and [null] into the empty
    string and every other element into its [ToString]; strings and
    booleans are the values the embedding covers. *)

Inductive JsValue : Type :=
  | JsString (s : string)
  | JsBoolean (b : bool)
  | JsNull
  | JsUndefined.

Definition joinElement (v : JsValue) : string :=
  match v with
  | JsString s => s
  | JsBoolean true => "true"
  | JsBoolean false => "false"
  | JsNull | JsUndefined => EmptyString
  end.

(** [data.join(sep)] *)
Fixpoint join (sep : string) (data : list JsValue) : string :=
  match data with
  | [] => EmptyString
  | [v] => joinElement v
  | v :: rest => joinElement v +:+ sep +:+ join sep rest
  end.

(** ** The process *)

(** Which logger was entered.  This is specification state only: the
    source keeps no such record, the embedding notes every entry into a
    logger so that statements about "the logger is never called" can be
    made about a run. *)
Inductive Logger : Type := LogError | LogWarning | LogInfo | LogVerbose.

#[global] Instance Logger_eq_dec : EqDecision Logger.
Proof. solve_decision. Defined.

Record Process : Type := mkProcess {
  (** [let verboseEnabled = false] *)
  verboseEnabled : bool;
  (** the buffers handed to [Deno.stdout.write]/[writeSync], oldest first *)
  stdout : list (list Byte.byte);
  (** the loggers entered so far, oldest first *)
  calls : list Logger
}.

(** The state of a fresh process: the initialiser of [verboseEnabled] and
    nothing written. *)
Definition startup : Process :=
  {| verboseEnabled := false; stdout := []; calls := [] |}.

(** What the runtime and the library supply. *)
Record Host : Type := mkHost {
  (** [Deno.noColor] *)
  noColor : bool;
  (** the string [parser.getHelp()] resolves to *)
  helpText : string;
  (** the text [parser.showCompletionScript()] prints *)
  completionScriptText : string
}.

(** How a computation ends: it returns to its caller, or the process is
    terminated by [Deno.exit(code)]. *)
Inductive Completion (A : Type) : Type :=
  | Returned (a : A)
  | Exited (code : Z).
Arguments Returned {A} a.
Arguments Exited {A} code.

Definition Script (A : Type) : Type := Process → Completion A * Process.

#[global] Instance Script_ret : MRet Script :=
  λ A (a : A) (p : Process), (Returned a, p).

(** Sequencing ([;] and [await]): nothing after a [Deno.exit] runs. *)
#[global] Instance Script_bind : MBind Script :=
  λ A B (f : A → Script B) (m : Script A) (p : Process),
    match m p with
    | (Returned a, p') => f a p'
    | (Exited code, p') => (Exited code, p')
    end.

(** [Deno.exit(code)] *)
Definition Deno_exit {A : Type} (code : Z) : Script A :=
  λ p, (Exited code, p).

(** The exit status the operating system sees: that of [Deno.exit], or 0
    when the script runs to its end. *)
Definition exitCode {A : Type} (c : Completion A) : Z :=
  match c with
  | Returned _ => 0
  | Exited code => code
  end.

(** [verboseEnabled = b] *)
Definition set_verboseEnabled (b : bool) : Script unit :=
  λ p, (Returned (),
        {| verboseEnabled := b; stdout := stdout p; calls := calls p |}).

(** reading [verboseEnabled] *)
Definition get_verboseEnabled : Script bool :=
  λ p, (Returned (verboseEnabled p), p).

(** Entering a logger (specification state, see [Logger]). *)
Definition entered (l : Logger) : Script unit :=
  λ p, (Returned (),
        {| verboseEnabled := verboseEnabled p; stdout := stdout p;
           calls := calls p ++ [l] |}).

(** ** Output sink *)

(** [utf8TextEncoder.encode(msg)].  Strings of the embedding are byte
    strings, so the encoder lists their bytes. *)
Definition utf8TextEncoder_encode (msg : string) : list Byte.byte :=
  list_byte_of_string msg.

(** [Deno.stdout.writeSync(buffer)] and [await Deno.stdout.write(buffer)]:
    the buffer is appended to what standard output received.  (The source
    ignores the byte count both calls return; the embedding takes every
    write to be complete.) *)
Definition Deno_stdout_write (buffer : list Byte.byte) : Script unit :=
  λ p, (Returned (),
        {| verboseEnabled := verboseEnabled p; stdout := stdout p ++ [buffer];
           calls := calls p |}).

Definition writeStdoutSync (msg : string) : Script unit :=
  let buffer := utf8TextEncoder_encode msg in
  Deno_stdout_write buffer.

Definition writeStdout (msg : string) : Script unit :=
  let buffer := utf8TextEncoder_encode msg in
  Deno_stdout_write buffer.

Definition writeLineStdoutSync (msg : string) : Script unit :=
  writeStdoutSync (msg +:+ LF).

Definition writeLineStdout (msg : string) : Script unit :=
  writeStdout (msg +:+ LF).

(** ** Script constants *)

Definition SCRIPT_NAME : string := "install-pre-commit".
Definition SCRIPT_VERSION : string := "v0.1.0".
Definition SCRIPT_COPYRIGHT : string :=
  "Copyright (c) 2026 G'lek Tarssza, all rights reserved".
Definition ENABLE_CLI_HELP : bool := false.
Definition ENABLE_CLI_VERSION : bool := false.
Definition STRICT_CLI_OPTIONS : bool := false.
Definition STRICT_CLI_COMMANDS : bool := true.
Definition EXIT_PROCESS_ON_FAIL : bool := false.

(** ** Option schema *)





(** [interface GlobalOptions]: every field is optional. *)
Record GlobalOptions : Type := mkGlobalOptions {
  verbose : option bool;
  help : option bool;
  version : option bool;
  completionScript : option bool
}.

(** [interface CommandOptions extends GlobalOptions {}] *)
Definition CommandOptions : Type := GlobalOptions.

(** The test [if (x)] on an optional boolean: [undefined] is falsy. *)
Definition truthy (x : option bool) : bool :=
  match x with
  | Some b => b
  | None => false
  end.

(** [x ?? d] *)
Definition nullish (x : option bool) (d : bool) : bool :=
  match x with
  | Some b => b
  | None => d
  end.

(** An [Error] as [onFail] looks at it: only [stack] is read. *)
Record JsError : Type := mkJsError {
  message : string;
  stack : option string
}.

(** The test [if (error?.stack)]: a missing error, a missing stack and
    the empty string are all falsy. *)
Definition carriedStack (error : option JsError) : option string :=
  match error with
  | Some e =>
      match stack e with
      | Some s => if decide (s = EmptyString) then None else Some s
      | None => None
      end
  | None => None
  end.

Section Logging.
Context (host : Host).

(** ** Levelled loggers *)

(** The label each logger writes, plain when [Deno.noColor] is set and
    wrapped in its colour escape otherwise. *)
Definition label (l : Logger) : string :=
  match l with
  | LogError =>
      if noColor host then "[ERROR]"
      else ESC +:+ "[38:5:196m[ERROR]" +:+ ESC +:+ "[0m"
  | LogWarning =>
      if noColor host then "[WARN]"
      else ESC +:+ "[38:5:208m[WARN]" +:+ ESC +:+ "[0m"
  | LogInfo =>
      if noColor host then "[INFO]"
      else ESC +:+ "[38:5:111m[INFO]" +:+ ESC +:+ "[0m"
  | LogVerbose =>
      if noColor host then "[VERBOSE]"
      else ESC +:+ "[38:5:141m[VERBOSE]" +:+ ESC +:+ "[0m"
  end.

Definition logError (data : list JsValue) : Script unit :=
  entered LogError;;
  let msg := join " " data in
  if noColor host then
    writeLineStdoutSync ("[ERROR] " +:+ msg)
  else
    writeLineStdoutSync
      (ESC +:+ "[38:5:196m[ERROR]" +:+ ESC +:+ "[0m " +:+ msg).

Definition logWarning (data : list JsValue) : Script unit :=
  entered LogWarning;;
  let msg := join " " data in
  if noColor host then
    writeLineStdoutSync ("[WARN] " +:+ msg)
  else
    writeLineStdoutSync
      (ESC +:+ "[38:5:208m[WARN]" +:+ ESC +:+ "[0m " +:+ msg).

Definition logInfo (data : list JsValue) : Script unit :=
  entered LogInfo;;
  let msg := join " " data in
  if noColor host then
    writeLineStdoutSync ("[INFO] " +:+ msg)
  else
    writeLineStdoutSync
      (ESC +:+ "[38:5:111m[INFO]" +:+ ESC +:+ "[0m " +:+ msg).

(** In the plain branch the source writes the template
    [`[VERBOSE]\ ${msg}`]; the escaped space is a space. *)
Definition logVerbose (data : list JsValue) : Script unit :=
  entered LogVerbose;;
  enabled ← get_verboseEnabled;
  if negb enabled then mret ()
  else
    let msg := join " " data in
    if noColor host then
      writeLineStdoutSync ("[VERBOSE] " +:+ msg)
    else
      writeLineStdoutSync
        (ESC +:+ "[38:5:141m[VERBOSE]" +:+ ESC +:+ "[0m " +:+ msg).

(** The logger of a level, for statements that range over the levels. *)
Definition emit (l : Logger) : list JsValue → Script unit :=
  match l with
  | LogError => logError
  | LogWarning => logWarning
  | LogInfo => logInfo
  | LogVerbose => logVerbose
  end.

(** ** What yargs is asked for inside the handler *)

(** [await parser.getHelp()] *)
Definition parser_getHelp : Script string :=
  mret (helpText host).

(** [parser.showCompletionScript()]: yargs prints the script through
    its logger, one [console.log], which ends the text with a newline
    on standard output. *)
Definition parser_showCompletionScript : Script unit :=
  Deno_stdout_write
    (utf8TextEncoder_encode (completionScriptText host +:+ LF)).

(** ** The default command *)

(** [COMMAND_MODULE.handler] *)
Definition handler (args : CommandOptions) : Script unit :=
  set_verboseEnabled (nullish (verbose args) false);;
  (if truthy (help args) then
     text ← parser_getHelp;
     writeLineStdout text;;
     Deno_exit 0
   else mret ());;
  (if truthy (version args) then
     writeLineStdout (SCRIPT_NAME +:+ " " +:+ SCRIPT_VERSION);;
     writeLineStdout SCRIPT_COPYRIGHT;;
     Deno_exit 0
   else mret ());;
  (if truthy (completionScript args) then
     parser_showCompletionScript;;
     Deno_exit 0
   else mret ());;
  logInfo [JsString "Hello, world!"];;
  logVerbose [JsString "Hello, world, verbosely!"].

(** ** The failure callback *)

(** [onFail]; the third parameter of a yargs fail callback is not
    named by the source. *)
Definition onFail (msg : string) (error : option JsError) : Script unit :=
  logError [JsString "Fatal error while running script!"];;
  logError [JsString ("Error message: " +:+ DQUOTE +:+ msg +:+ DQUOTE)];;
  match carriedStack error with
  | Some trace =>
      logError [JsString "Stack trace:"];;
      writeLineStdout trace
  | None =>
      logError [JsString "No stack trace available!"]
  end.

(** ** Runs

    yargs drives the script by calling back into it: the handler of
    the default command and the failure callback are the only entry
    points the source registers.  A run is whatever sequence of those
    calls the library makes. *)
Inductive Callback : Type :=
  | CallHandler (args : CommandOptions)
  | CallFail (msg : string) (error : option JsError).

Definition callback (c : Callback) : Script unit :=
  match c with
  | CallHandler args => handler args
  | CallFail msg error => onFail msg error
  end.

Fixpoint run (cs : list Callback) : Script unit :=
  match cs with
  | [] => mret ()
  | c :: rest => callback c;; run rest
  end.

End Logging.

(** ** The argument parser

    The script hands [Deno.args] to yargs, which is a dependency and not
    part of the repository.  The definitions of this module describe how
    it resolves the declared flags, driven by the tables the source
    passes to it ([CLI_OPTIONS], [YARGS_PARSER_OPTIONS] and
    [ENABLE_CLI_ENV]).  The model is partial: it reads the spellings
    listed at [classify] and gives no result for an argument list that
    holds any other word before its [--]. *)
Module Yargs.

Local Open Scope nat_scope.



























End Yargs.


(** ** Vocabulary of the statements *)

(** The entries into [logWarning] a process has recorded. *)
Definition warningCalls (p : Process) : list Logger :=
  List.filter (λ l, bool_decide (l = LogWarning)) (calls p).

(** The line a logger writes for a message: its label, a space, the
    message, and the newline [writeLineStdoutSync] appends. *)
Definition logLine (host : Host) (l : Logger) (msg : string) : list Byte.byte :=
  utf8TextEncoder_encode ((label host l +:+ " " +:+ msg) +:+ LF).

(** A line written without a label. *)
Definition rawLine (msg : string) : list Byte.byte :=
  utf8TextEncoder_encode (msg +:+ LF).

(** A process whose verbosity state has been overwritten, as an earlier
    call of the handler leaves it. *)
Definition withVerboseEnabled (b : bool) (p : Process) : Process :=
  {| verboseEnabled := b; stdout := stdout p; calls := calls p |}.

(** A host that differs in [Deno.noColor] only. *)
Definition withNoColor (b : bool) (host : Host) : Host :=
  {| noColor := b; helpText := helpText host;
     completionScriptText := completionScriptText host |}.

(** A buffer that ends with the newline byte. *)
Definition endsWithNewline (buffer : list Byte.byte) : Prop :=
  last buffer = Some Byte.x0a.

(** [p'] has received what [p] had and, after it, buffers that each end
    with a newline. *)
Definition wroteLines (p p' : Process) : Prop :=
  ∃ new : list (list Byte.byte),
    stdout p' = (stdout p ++ new)%list ∧ Forall endsWithNewline new.

(** * Properties *)

(** Unfolds the script down to the state transformers. *)
Ltac script_unfold :=
  unfold handler, onFail, emit, callback,
    logError, logWarning, logInfo, logVerbose,
    parser_getHelp, parser_showCompletionScript,
    writeLineStdout, writeLineStdoutSync, writeStdout, writeStdoutSync,
    Deno_stdout_write, Deno_exit, entered,
    set_verboseEnabled, get_verboseEnabled,
    mbind, Script_bind, mret, Script_ret.

(** Runs a script whose tests are all decided. *)
Ltac script_run :=
  script_unfold; cbn [nullish truthy verbose help version completionScript
                      noColor helpText completionScriptText negb
                      verboseEnabled stdout calls fst snd];
  rewrite <- ?app_assoc; try reflexivity.

(** ** Joining *)

(** [join] is the concatenation, with the separator in between, of the
    elements' texts. *)
Lemma join_concat (sep : string) (data : list JsValue) :
  join sep data = String.concat sep (joinElement <$> data).
Proof.
  induction data as [|v [|w rest] IH]; [reflexivity..|].
  change (join sep (v :: w :: rest))
    with (joinElement v +:+ sep +:+ join sep (w :: rest)).
  rewrite IH. reflexivity.
Qed.

(** ** Loggers *)

(** C9: every logger that writes (error, warning and info always, verbose
    when verbosity is enabled) hands standard output one buffer per call:
    the level's label, a space, the values joined with single spaces, and
    one newline. *)
Theorem logger_line (host : Host) (l : Logger) (data : list JsValue)
    (p : Process) :
  (l = LogVerbose → verboseEnabled p = true) →
  emit host l data p =
    (Returned (),
     {| verboseEnabled := verboseEnabled p;
        stdout := stdout p ++
          [utf8TextEncoder_encode
             ((label host l +:+ " "
               +:+ String.concat " " (joinElement <$> data)) +:+ LF)];
        calls := calls p ++ [l] |}).
Proof.
  intros Hverbose. rewrite <- join_concat.
  destruct host as [[|] ht cs], l; try reflexivity;
    unfold emit, logVerbose, mbind, Script_bind; simpl;
    rewrite (Hverbose eq_refl); reflexivity.
Qed.

Lemma logger_line_witness :
  emit (mkHost true "usage" "script") LogVerbose
       [JsString "a"; JsNull; JsBoolean true] (mkProcess true [] []) =
    (Returned (),
     mkProcess true [list_byte_of_string ("[VERBOSE] a  true" +:+ LF)]
               [LogVerbose]).
Proof.
  exact (logger_line (mkHost true "usage" "script") LogVerbose
           [JsString "a"; JsNull; JsBoolean true] (mkProcess true [] [])
           (λ _, eq_refl)).
Defined.

(** C7: with the verbosity state off, [logVerbose] returns without
    writing, whatever values it is given: standard output and the
    verbosity state are as before (only the entry into the logger is
    noted). *)
Theorem logVerbose_disabled (host : Host) (data : list JsValue)
    (p : Process) :
  verboseEnabled p = false →
  logVerbose host data p =
    (Returned (),
     {| verboseEnabled := false; stdout := stdout p;
        calls := calls p ++ [LogVerbose] |}).
Proof.
  intros Hoff. unfold logVerbose, mbind, Script_bind; simpl.
  rewrite Hoff. reflexivity.
Qed.

Lemma logVerbose_disabled_witness :
  stdout (logVerbose (mkHost false "usage" "script")
            [JsString "unseen"] startup).2 = [].
Proof.
  rewrite (logVerbose_disabled (mkHost false "usage" "script")
             [JsString "unseen"] startup eq_refl).
  reflexivity.
Defined.

(** ** The default command *)

(** C2: the handler tries help, then version, then the completion script,
    then greets.  Each of the first three prints its text and leaves
    through [Deno.exit(0)]; the greeting branch returns, so the script
    ends with status 0 without calling [Deno.exit].  In every branch the
    verbosity state has been set from the [verbose] option first. *)
Theorem handler_priority (host : Host) (args : CommandOptions)
    (p : Process) :
  handler host args p =
    (let v := nullish (verbose args) false in
     if truthy (help args) then
      (Exited 0,
       {| verboseEnabled := v;
          stdout := stdout p ++ [rawLine (helpText host)];
          calls := calls p |})
    else if truthy (version args) then
      (Exited 0,
       {| verboseEnabled := v;
          stdout := stdout p ++
            [rawLine (SCRIPT_NAME +:+ " " +:+ SCRIPT_VERSION);
             rawLine SCRIPT_COPYRIGHT];
          calls := calls p |})
    else if truthy (completionScript args) then
      (Exited 0,
       {| verboseEnabled := v;
          stdout := stdout p ++ [rawLine (completionScriptText host)];
          calls := calls p |})
    else
      (Returned (),
       {| verboseEnabled := v;
          stdout := stdout p ++
            logLine host LogInfo "Hello, world!" ::
            (if v then [logLine host LogVerbose "Hello, world, verbosely!"]
             else []);
          calls := calls p ++ [LogInfo; LogVerbose] |}))
  ∧ exitCode (handler host args p).1 = 0.
Proof.
  destruct host as [[|] ht cs],
    args as [[[|]|] [[|]|] [[|]|] [[|]|]]; split; script_run.
Qed.

(** C3: with the version flag set and help not, the handler writes the
    line "install-pre-commit v0.1.0", then the copyright line, and the
    process exits with code 0; nothing else is written and no logger is
    entered. *)
Theorem handler_version (host : Host) (args : CommandOptions)
    (p : Process) :
  truthy (help args) = false →
  truthy (version args) = true →
  handler host args p =
    (Exited 0,
     {| verboseEnabled := nullish (verbose args) false;
        stdout := stdout p ++
          [utf8TextEncoder_encode ("install-pre-commit v0.1.0" +:+ LF);
           utf8TextEncoder_encode
             ("Copyright (c) 2026 G'lek Tarssza, all rights reserved"
              +:+ LF)];
        calls := calls p |}).
Proof.
  intros Hhelp Hversion.
  destruct args as [v h ver c]; cbn [help version] in Hhelp, Hversion.
  script_unfold; cbn [help version verbose completionScript].
  rewrite Hhelp, Hversion; cbn [stdout calls verboseEnabled].
  rewrite <- app_assoc. reflexivity.
Qed.

Lemma handler_version_witness :
  handler (mkHost false "usage" "script")
          (mkGlobalOptions (Some true) (Some false) (Some true) (Some true))
          startup =
    (Exited 0,
     mkProcess true
       [list_byte_of_string ("install-pre-commit v0.1.0" +:+ LF);
        list_byte_of_string
          ("Copyright (c) 2026 G'lek Tarssza, all rights reserved" +:+ LF)]
       []).
Proof.
  exact (handler_version (mkHost false "usage" "script")
           (mkGlobalOptions (Some true) (Some false) (Some true) (Some true))
           startup eq_refl eq_refl).
Defined.

(** C6: with help, version and the completion script all unset, the
    handler writes exactly the info-level greeting when verbose is unset
    too, and the info-level greeting followed by the verbose-level
    greeting when verbose is set. *)
Theorem handler_greeting (host : Host) (args : CommandOptions)
    (p : Process) :
  truthy (help args) = false →
  truthy (version args) = false →
  truthy (completionScript args) = false →
  (truthy (verbose args) = false →
   stdout (handler host args p).2 =
     (stdout p ++ [logLine host LogInfo "Hello, world!"])%list)
  ∧ (truthy (verbose args) = true →
     stdout (handler host args p).2 =
       (stdout p ++ [logLine host LogInfo "Hello, world!";
                     logLine host LogVerbose "Hello, world, verbosely!"])%list).
Proof.
  intros Hhelp Hversion Hcompletion.
  destruct args as [v h ver c];
    cbn [help version completionScript verbose] in *.
  script_unfold; cbn [help version verbose completionScript].
  rewrite Hhelp, Hversion, Hcompletion.
  destruct host as [[|] ht cs], v as [[|]|]; split; intros Hv;
    try discriminate Hv; cbn; rewrite <- ?app_assoc; reflexivity.
Qed.

Lemma handler_greeting_witness :
  stdout (handler (mkHost true "usage" "script")
            (mkGlobalOptions None None None None) startup).2 =
    [list_byte_of_string ("[INFO] Hello, world!" +:+ LF)]
  ∧ stdout (handler (mkHost true "usage" "script")
              (mkGlobalOptions (Some true) None None None) startup).2 =
      [list_byte_of_string ("[INFO] Hello, world!" +:+ LF);
       list_byte_of_string ("[VERBOSE] Hello, world, verbosely!" +:+ LF)].
Proof.
  split.
  - exact (proj1 (handler_greeting (mkHost true "usage" "script")
                    (mkGlobalOptions None None None None) startup
                    eq_refl eq_refl eq_refl) eq_refl).
  - exact (proj2 (handler_greeting (mkHost true "usage" "script")
                    (mkGlobalOptions (Some true) None None None) startup
                    eq_refl eq_refl eq_refl) eq_refl).
Defined.

(** ** The failure callback *)

(** C8: [onFail] writes the header line, then the failure message between
    double quotes, then either the stack-trace announcement followed by
    the trace itself or the line saying none is available; it returns to
    its caller ([Deno.exit] is not reached, the verbosity state is left
    alone), and the script sets [EXIT_PROCESS_ON_FAIL] to false. *)
Theorem onFail_output (host : Host) (msg : string)
    (error : option JsError) (p : Process) :
  onFail host msg error p =
    (Returned (),
     {| verboseEnabled := verboseEnabled p;
        stdout := stdout p ++
          [logLine host LogError "Fatal error while running script!";
           logLine host LogError
             ("Error message: " +:+ DQUOTE +:+ msg +:+ DQUOTE)] ++
          match carriedStack error with
          | Some trace =>
              [logLine host LogError "Stack trace:"; rawLine trace]
          | None =>
              [logLine host LogError "No stack trace available!"]
          end;
        calls := calls p ++ [LogError; LogError; LogError] |})
  ∧ EXIT_PROCESS_ON_FAIL = false.
Proof.
  split; [|reflexivity].
  script_unfold.
  destruct host as [[|] ht cs], (carriedStack error) as [trace|];
    cbn; rewrite <- ?app_assoc; reflexivity.
Qed.

(** ** Runs *)

Lemma handler_warningCalls (host : Host) (args : CommandOptions)
    (p : Process) :
  warningCalls (handler host args p).2 = warningCalls p.
Proof.
  unfold warningCalls.
  destruct host as [[|] ht cs],
    args as [[[|]|] [[|]|] [[|]|] [[|]|]];
    script_unfold; cbn [snd calls nullish truthy verbose help version
                        completionScript noColor negb verboseEnabled];
    rewrite ?List.filter_app; cbn [List.filter bool_decide];
    rewrite ?app_nil_r; reflexivity.
Qed.

Lemma onFail_warningCalls (host : Host) (msg : string)
    (error : option JsError) (p : Process) :
  warningCalls (onFail host msg error p).2 = warningCalls p.
Proof.
  unfold warningCalls. script_unfold.
  destruct host as [[|] ht cs], (carriedStack error) as [trace|];
    cbn [snd calls noColor];
    rewrite ?List.filter_app; cbn [List.filter bool_decide];
    rewrite ?app_nil_r; reflexivity.
Qed.

(** C10: no run enters [logWarning].  Whatever calls yargs makes into the
    script -- the handler, the failure callback, any number of times and
    in any order -- the entries into the warning logger are those that
    were there before; a run from a fresh process has none. *)
Theorem run_never_warns (host : Host) (cs : list Callback) :
  (∀ p : Process, warningCalls (run host cs p).2 = warningCalls p)
  ∧ warningCalls (run host cs startup).2 = [].
Proof.
  assert (∀ p, warningCalls (run host cs p).2 = warningCalls p) as Hkeep.
  { induction cs as [|c rest IH]; intros p; [reflexivity|].
    cbn [run]. unfold mbind, Script_bind.
    assert (warningCalls (callback host c p).2 = warningCalls p) as Hc
      by (destruct c; [apply handler_warningCalls|apply onFail_warningCalls]).
    destruct (callback host c p) as [[[]|code] p'] eqn:Hstep; cbn [snd] in *.
    - rewrite IH. exact Hc.
    - exact Hc. }
  split; [exact Hkeep|]. rewrite Hkeep. reflexivity.
Qed.

(** ** Option resolution *)








(** ** Determinism *)





(** * Further properties of the script *)

(** ** Bytes and strings *)

Lemma append_assoc (a b c : string) : (a +:+ b) +:+ c = a +:+ b +:+ c.
Proof.
  induction a as [|ch a IH]; [reflexivity|].
  change (String ch ((a +:+ b) +:+ c) = String ch (a +:+ b +:+ c)).
  by rewrite IH.
Qed.

Lemma encode_append (a b : string) :
  utf8TextEncoder_encode (a +:+ b) =
  (utf8TextEncoder_encode a ++ utf8TextEncoder_encode b)%list.
Proof.
  unfold utf8TextEncoder_encode, list_byte_of_string.
  induction a as [|ch a IH]; [reflexivity|].
  change (Ascii.byte_of_ascii ch ::
            List.map Ascii.byte_of_ascii (list_ascii_of_string (a +:+ b)) =
          Ascii.byte_of_ascii ch ::
            (List.map Ascii.byte_of_ascii (list_ascii_of_string a) ++
             List.map Ascii.byte_of_ascii (list_ascii_of_string b))%list).
  by rewrite IH.
Qed.

Lemma encode_inj (a b : string) :
  utf8TextEncoder_encode a = utf8TextEncoder_encode b → a = b.
Proof.
  unfold utf8TextEncoder_encode. intros Hbytes.
  rewrite <- (string_of_list_byte_of_string a),
          <- (string_of_list_byte_of_string b).
  by rewrite Hbytes.
Qed.

Lemma encode_line_ends (msg : string) :
  endsWithNewline (utf8TextEncoder_encode (msg +:+ LF)).
Proof.
  unfold endsWithNewline. rewrite encode_append.
  change (utf8TextEncoder_encode LF) with [Byte.x0a]. apply last_snoc.
Qed.

(** ** Whole lines *)

Lemma wroteLines_same (p p' : Process) :
  stdout p' = stdout p → wroteLines p p'.
Proof.
  intros Hout. exists []. split; [|constructor].
  rewrite Hout. symmetry. apply app_nil_r.
Qed.

Lemma wroteLines_trans (p1 p2 p3 : Process) :
  wroteLines p1 p2 → wroteLines p2 p3 → wroteLines p1 p3.
Proof.
  intros (new1 & Hout1 & Hnew1) (new2 & Hout2 & Hnew2).
  exists (new1 ++ new2)%list. split.
  - rewrite Hout2, Hout1. symmetry. apply app_assoc.
  - by apply Forall_app.
Qed.

Lemma bind_wroteLines {A B : Type} (m : Script A) (f : A → Script B) :
  (∀ p, wroteLines p (m p).2) →
  (∀ a p, wroteLines p (f a p).2) →
  ∀ p, wroteLines p ((m ≫= f) p).2.
Proof.
  intros Hm Hf p. unfold mbind, Script_bind.
  specialize (Hm p). destruct (m p) as [[a|code] p']; cbn [snd] in *.
  - eapply wroteLines_trans; [exact Hm|apply Hf].
  - exact Hm.
Qed.

Lemma write_line_wroteLines (msg : string) (p : Process) :
  wroteLines p
    (Deno_stdout_write (utf8TextEncoder_encode (msg +:+ LF)) p).2.
Proof.
  exists [utf8TextEncoder_encode (msg +:+ LF)]. split; [reflexivity|].
  constructor; [apply encode_line_ends|constructor].
Qed.

(** Decomposes a script into its sequenced steps and closes each one:
    a step either writes one line or leaves standard output alone. *)
Ltac wrote_lines :=
  repeat first
    [ apply write_line_wroteLines
    | apply bind_wroteLines; [intros ?|intros ? ?]
    | apply wroteLines_same; reflexivity
    | match goal with
      | |- context [if ?b then _ else _] => destruct b
      | |- context [match ?o with Some _ => _ | None => _ end] => destruct o
      end ].

Lemma emit_wroteLines (host : Host) (l : Logger) (data : list JsValue)
    (p : Process) :
  wroteLines p (emit host l data p).2.
Proof.
  destruct l; unfold emit, logError, logWarning, logInfo, logVerbose,
    writeLineStdoutSync, writeStdoutSync; wrote_lines.
Qed.

Lemma callback_wroteLines (host : Host) (c : Callback) (p : Process) :
  wroteLines p (callback host c p).2.
Proof.
  destruct c as [args|msg error];
    unfold callback, handler, onFail, parser_getHelp,
      parser_showCompletionScript, writeLineStdout, writeStdout.
  - wrote_lines; apply (emit_wroteLines host LogInfo)
                 || apply (emit_wroteLines host LogVerbose).
  - wrote_lines; apply (emit_wroteLines host LogError).
Qed.

(** X1: every buffer a run hands to standard output ends with a newline,
    and what was written before is kept: in any sequence of handler and
    failure-callback calls the output only grows, by whole lines. *)
Theorem run_writes_whole_lines (host : Host) (cs : list Callback)
    (p : Process) :
  ∃ new : list (list Byte.byte),
    stdout (run host cs p).2 = (stdout p ++ new)%list
    ∧ Forall (λ buffer, last buffer = Some Byte.x0a) new.
Proof.
  change (wroteLines p (run host cs p).2). revert p.
  induction cs as [|c rest IH]; intros p; cbn [run].
  - apply wroteLines_same. reflexivity.
  - apply bind_wroteLines; [apply callback_wroteLines|intros _; exact IH].
Qed.

(** ** The verbosity state *)

(** X2: neither entry point reads the verbosity state it finds.  The
    handler overwrites it from its own [verbose] option before anything
    else, so whatever an earlier call left there changes nothing of the
    handler's result; the failure callback writes the same diagnostics
    with verbosity on or off. *)
Theorem entry_points_ignore_prior_verbosity (host : Host)
    (args : CommandOptions) (msg : string) (error : option JsError)
    (b : bool) (p : Process) :
  handler host args (withVerboseEnabled b p) = handler host args p
  ∧ stdout (onFail host msg error (withVerboseEnabled b p)).2 =
    stdout (onFail host msg error p).2.
Proof.
  split.
  - unfold handler, set_verboseEnabled, withVerboseEnabled,
      mbind, Script_bind.
    reflexivity.
  - script_unfold.
    destruct host as [[|] ht cs], (carriedStack error) as [trace|];
      reflexivity.
Qed.

(** ** The failure callback and the stack *)

Lemma onFail_carriedStack (host : Host) (msg : string)
    (e1 e2 : option JsError) (p : Process) :
  carriedStack e1 = carriedStack e2 →
  onFail host msg e1 p = onFail host msg e2 p.
Proof. intros Hstack. unfold onFail. rewrite Hstack. reflexivity. Qed.

(** X3: [onFail] looks at nothing of the error but a non-empty stack.
    An error whose stack is missing or is the empty string is reported
    exactly like a missing error, and two errors with the same stack are
    reported alike whatever their own messages are: the text of
    [error.message] is never written. *)
Theorem onFail_reads_only_the_stack (host : Host) (msg : string)
    (p : Process) (m m' : string) (s : option string) :
  onFail host msg (Some {| message := m; stack := None |}) p
    = onFail host msg None p
  ∧ onFail host msg (Some {| message := m; stack := Some EmptyString |}) p
    = onFail host msg None p
  ∧ onFail host msg (Some {| message := m; stack := s |}) p
    = onFail host msg (Some {| message := m'; stack := s |}) p.
Proof. repeat split; apply onFail_carriedStack; reflexivity. Qed.

(** ** Colour *)

(** X4: the help, version and completion-script branches of the handler
    write no label and no colour: with one of the three flags set, the
    handler's result is the same whether [Deno.noColor] is set or not. *)
Theorem handler_flags_ignore_noColor (host : Host) (args : CommandOptions)
    (b : bool) (p : Process) :
  truthy (help args) || truthy (version args)
    || truthy (completionScript args) = true →
  handler (withNoColor b host) args p = handler host args p.
Proof.
  intros Hflag.
  destruct host as [c ht cs], args as [v [[|]|] [[|]|] [[|]|]];
    try discriminate Hflag; reflexivity.
Qed.

Lemma handler_flags_ignore_noColor_witness :
  handler (withNoColor true (mkHost false "usage" "script"))
          (mkGlobalOptions None None None (Some true)) startup
  = handler (mkHost false "usage" "script")
            (mkGlobalOptions None None None (Some true)) startup.
Proof.
  exact (handler_flags_ignore_noColor (mkHost false "usage" "script")
           (mkGlobalOptions None None None (Some true)) true startup
           eq_refl).
Defined.

Lemma plain_line_no_escape (tag : list Byte.byte) (msg : string) :
  Byte.x1b ∉ tag →
  Byte.x1b ∉ utf8TextEncoder_encode msg →
  Byte.x1b ∉ (tag ++ utf8TextEncoder_encode (msg +:+ LF))%list.
Proof.
  intros Htag Hmsg. rewrite encode_append.
  change (utf8TextEncoder_encode LF) with [Byte.x0a].
  rewrite !not_elem_of_app. repeat split; [exact Htag|exact Hmsg|].
  intros Hin. apply list_elem_of_singleton in Hin. discriminate Hin.
Qed.

(** X5: with [Deno.noColor] set, a logger adds no escape byte of its
    own: if the joined message holds no escape byte, neither does the
    buffer the logger writes. *)
Theorem plain_logger_writes_no_escape (host : Host) (l : Logger)
    (data : list JsValue) (p : Process) (buffer : list Byte.byte) :
  noColor host = true →
  Byte.x1b ∉ utf8TextEncoder_encode (join " " data) →
  buffer ∈ stdout (emit host l data p).2 →
  buffer ∈ stdout p ∨ Byte.x1b ∉ buffer.
Proof.
  intros Hplain Hmsg.
  assert (∀ tag : string,
            Byte.x1b ∉ utf8TextEncoder_encode tag →
            Byte.x1b ∉ utf8TextEncoder_encode
                         ((tag +:+ join " " data) +:+ LF)) as Hline.
  { intros tag Htag. rewrite append_assoc, encode_append.
    by apply plain_line_no_escape. }
  destruct host as [c ht cs]; cbn [noColor] in Hplain; subst c.
  destruct l, p as [[|] out entries]; script_unfold;
    cbn [noColor negb verboseEnabled stdout calls snd];
    intros Hin; try (left; exact Hin);
    apply elem_of_app in Hin as [Hin|Hin]; try (left; exact Hin);
    apply list_elem_of_singleton in Hin; subst buffer; right;
    apply Hline; intros Hesc; apply list_elem_of_In in Hesc;
    cbn in Hesc; intuition discriminate.
Qed.

Lemma plain_logger_writes_no_escape_witness :
  list_byte_of_string ("[WARN] disk almost full" +:+ LF) ∈ stdout startup
  ∨ Byte.x1b ∉ list_byte_of_string ("[WARN] disk almost full" +:+ LF).
Proof.
  apply (plain_logger_writes_no_escape (mkHost true "usage" "script")
           LogWarning [JsString "disk"; JsString "almost full"] startup).
  - reflexivity.
  - intros Hesc. apply list_elem_of_In in Hesc. vm_compute in Hesc.
    intuition discriminate.
  - apply list_elem_of_In. left. reflexivity.
Defined.

(** ** Reading lines back *)

Lemma append_LF_inj (a b : string) : a +:+ LF = b +:+ LF → a = b.
Proof.
  intros Heq. apply (f_equal utf8TextEncoder_encode) in Heq.
  rewrite !encode_append in Heq. apply app_inv_tail in Heq.
  by apply encode_inj.
Qed.

Lemma emit_written (host : Host) (l : Logger) (data : list JsValue)
    (p : Process) :
  verboseEnabled p = true →
  stdout (emit host l data p).2 =
    (stdout p ++
       [utf8TextEncoder_encode
          ((label host l +:+ " " +:+ join " " data) +:+ LF)])%list.
Proof.
  intros Hon. destruct p as [v out entries]; cbn [verboseEnabled] in Hon;
    subst v.
  destruct host as [[|] ht cs], l; reflexivity.
Qed.

(** X6: a line tells its level and its message.  With verbosity on (so
    that every logger writes), two logger calls that leave the same
    standard output were calls of the same logger with the same joined
    message: under either colour setting no two levels share a line. *)
Theorem logger_lines_unambiguous (host : Host) (l1 l2 : Logger)
    (d1 d2 : list JsValue) (p : Process) :
  verboseEnabled p = true →
  stdout (emit host l1 d1 p).2 = stdout (emit host l2 d2 p).2 →
  l1 = l2 ∧ join " " d1 = join " " d2.
Proof.
  intros Hon Hsame. rewrite !emit_written in Hsame by exact Hon.
  apply app_inv_head in Hsame. injection Hsame as Hline.
  apply encode_inj, append_LF_inj in Hline.
  destruct host as [[|] ht cs], l1, l2;
    cbn [label noColor] in Hline; cbn in Hline;
    first [ discriminate Hline
          | split; [reflexivity|]; by injection Hline ].
Qed.

Lemma logger_lines_unambiguous_witness :
  LogInfo = LogInfo
  ∧ join " " [JsString "a"; JsString "b c"]
    = join " " [JsString "a b"; JsString "c"].
Proof.
  exact (logger_lines_unambiguous (mkHost false "usage" "script")
           LogInfo LogInfo [JsString "a"; JsString "b c"]
           [JsString "a b"; JsString "c"] (mkProcess true [] [])
           eq_refl eq_refl).
Defined.

(** ** Joining and logging *)

Lemma join_app (sep : string) (a b : list JsValue) :
  a ≠ [] → b ≠ [] →
  join sep (a ++ b) = join sep a +:+ sep +:+ join sep b.
Proof.
  intros Ha Hb. induction a as [|v [|w a] IH]; [done| |].
  - destruct b as [|w b]; [done|]. reflexivity.
  - change (join sep ((v :: w :: a) ++ b))
      with (joinElement v +:+ sep +:+ join sep ((w :: a) ++ b)).
    change (join sep (v :: w :: a))
      with (joinElement v +:+ sep +:+ join sep (w :: a)).
    rewrite IH by done. by rewrite !append_assoc.
Qed.

Lemma emit_join (host : Host) (l : Logger) (d1 d2 : list JsValue)
    (p : Process) :
  join " " d1 = join " " d2 → emit host l d1 p = emit host l d2 p.
Proof.
  intros Hjoin. destruct l;
    unfold emit, logError, logWarning, logInfo, logVerbose;
    rewrite Hjoin; reflexivity.
Qed.

(** X7: a logger sees its values only through their joined text, and
    joining composes: logging the values of two non-empty lists in one
    call does what logging the two joined texts as two strings does.
    (For an empty list this fails: its text is empty but still gets its
    separating space.) *)
Theorem emit_append (host : Host) (l : Logger) (a b : list JsValue)
    (p : Process) :
  a ≠ [] → b ≠ [] →
  emit host l (a ++ b) p =
  emit host l [JsString (join " " a); JsString (join " " b)] p.
Proof.
  intros Ha Hb. apply emit_join. by rewrite join_app.
Qed.

Lemma emit_append_witness :
  emit (mkHost true "usage" "script") LogError
       ([JsString "exit"; JsNull] ++ [JsBoolean false]) startup =
  emit (mkHost true "usage" "script") LogError
       [JsString "exit "; JsString "false"] startup.
Proof.
  exact (emit_append (mkHost true "usage" "script") LogError
           [JsString "exit"; JsNull] [JsBoolean false] startup
           ltac:(discriminate) ltac:(discriminate)).
Defined.
